(** * structured_outputs_agents: the Pydantic-to-OpenAI schema conversion

    A shallow embedding of [src/main.py].  The script has one function of
    interest, [pydantic_to_so_openai_schema], which reshapes the dictionary
    produced by Pydantic's [model_json_schema()] into the [response_format]
    dictionary of OpenAI's structured outputs.

    The development has three layers:
    - Python values as JSON trees ([Json]) and the dictionary operations the
      function uses;
    - the function itself over values, and the schema generation of the
      Pydantic library for plainly declared models;
    - the function over a store of mutable Python objects, where identity,
      aliasing and exceptions are visible. *)

From Stdlib Require Import String Ascii List ZArith Bool Arith Lia.
Import ListNotations.
Local Open Scope string_scope.
Local Open Scope list_scope.

(** ** Python values *)

(** The values that occur in a JSON schema.  A Python [dict] keeps its
    insertion order, so it is an association list; its keys are unique. *)
#[warnings="-register-all"]
Inductive Json : Type :=
| JNull
| JBool (b : bool)
| JInt (z : Z)
| JStr (s : string)
| JArr (xs : list Json)
| JObj (kvs : list (string * Json)).

(** The dictionary operations do not depend on what the values are; they
    are shared by the two levels of the development. *)
Section Dict.

Context {V : Type}.

(** [d.get(k, default)] *)
Fixpoint dict_get (d : list (string * V)) (k : string) (default : V) : V :=
  match d with
  | [] => default
  | (k', v) :: d' => if String.eqb k' k then v else dict_get d' k default
  end.

(** [k in d] *)
Fixpoint dict_mem (d : list (string * V)) (k : string) : bool :=
  match d with
  | [] => false
  | (k', _) :: d' => String.eqb k' k || dict_mem d' k
  end.

(** [d[k]]; [None] stands for the [KeyError]. *)
Fixpoint dict_lookup (d : list (string * V)) (k : string) : option V :=
  match d with
  | [] => None
  | (k', v) :: d' => if String.eqb k' k then Some v else dict_lookup d' k
  end.

(** [d[k] = v]: an existing key keeps its position, a new key goes last. *)
Fixpoint dict_set (d : list (string * V)) (k : string) (v : V)
  : list (string * V) :=
  match d with
  | [] => [(k, v)]
  | (k', v') :: d' =>
      if String.eqb k' k then (k', v) :: d' else (k', v') :: dict_set d' k v
  end.

(** A dictionary display [{k1: v1, ..., kn: vn}], and equally a call with
    keyword arguments of a [TypedDict] class: the items are inserted from
    left to right. *)
Definition dict_display (items : list (string * V)) : list (string * V) :=
  fold_left (fun d kv => dict_set d (fst kv) (snd kv)) items [].

(** [list(d.keys())] *)
Definition keys (d : list (string * V)) : list string := map fst d.

End Dict.

Definition dict := list (string * Json).

(** Induction on JSON trees, with the hypothesis for every element of a
    list and every value of a dictionary. *)
Section JsonInduction.

Variable P : Json -> Prop.
Hypothesis HNull : P JNull.
Hypothesis HBool : forall b, P (JBool b).
Hypothesis HInt : forall z, P (JInt z).
Hypothesis HStr : forall s, P (JStr s).
Hypothesis HArr : forall xs, Forall P xs -> P (JArr xs).
Hypothesis HObj :
  forall kvs, Forall (fun kv => P (snd kv)) kvs -> P (JObj kvs).

Fixpoint Json_tree_ind (j : Json) : P j :=
  match j with
  | JNull => HNull
  | JBool b => HBool b
  | JInt z => HInt z
  | JStr s => HStr s
  | JArr xs =>
      HArr xs
        ((fix go (xs : list Json) : Forall P xs :=
            match xs with
            | [] => Forall_nil P
            | x :: xs' => Forall_cons x (Json_tree_ind x) (go xs')
            end) xs)
  | JObj kvs =>
      HObj kvs
        ((fix go (kvs : list (string * Json))
            : Forall (fun kv => P (snd kv)) kvs :=
            match kvs with
            | [] => Forall_nil _
            | kv :: kvs' =>
                Forall_cons kv (Json_tree_ind (snd kv)) (go kvs')
            end) kvs)
  end.

End JsonInduction.

(** [j[k]] for a value that should be a dictionary; [None] stands for the
    [KeyError] or [TypeError]. *)
Definition subscript (j : Json) (k : string) : option Json :=
  match j with
  | JObj d => dict_lookup d k
  | _ => None
  end.

(** Python's [==] on these values: lists compare in order, dictionaries
    compare as mappings whatever their insertion order, and [True == 1]. *)
Fixpoint py_eq (a b : Json) {struct a} : bool :=
  match a, b with
  | JNull, JNull => true
  | JBool x, JBool y => Bool.eqb x y
  | JBool x, JInt y => Z.eqb (if x then 1 else 0) y
  | JInt x, JBool y => Z.eqb x (if y then 1 else 0)
  | JInt x, JInt y => Z.eqb x y
  | JStr x, JStr y => String.eqb x y
  | JArr xs, JArr ys =>
      (fix go (xs ys : list Json) {struct xs} : bool :=
         match xs, ys with
         | [], [] => true
         | x :: xs', y :: ys' => py_eq x y && go xs' ys'
         | _, _ => false
         end) xs ys
  | JObj d1, JObj d2 =>
      Nat.eqb (length d1) (length d2) &&
      (fix all (d : list (string * Json)) {struct d} : bool :=
         match d with
         | [] => true
         | (k, v) :: d' =>
             match dict_lookup d2 k with
             | Some w => py_eq v w
             | None => false
             end && all d'
         end) d1
  | _, _ => false
  end.

(** ** The TypedDict classes of the OpenAI SDK

    [JSONSchema] and [ResponseFormatJSONSchema] are [TypedDict]s: calling one
    builds a plain dictionary from the keyword arguments, in the order in
    which the call site writes them, without any validation. *)

Definition JSONSchema (name schema : Json) (strict : bool) : Json :=
  JObj (dict_display
          [("name", name); ("schema", schema); ("strict", JBool strict)]).

Definition ResponseFormatJSONSchema (type json_schema : Json) : Json :=
  JObj (dict_display [("type", type); ("json_schema", json_schema)]).

(** ** Model classes

    The function uses one capability of its argument: the class method
    [model_json_schema()], which returns a dictionary.  A model class is
    therefore described by the dictionary its introspection returns; this
    covers classes that override the method as well. *)
Record ModelClass : Type := { model_json_schema : dict }.

(** ** The conversion, [src/main.py] lines 48-79 *)

Definition pydantic_to_so_openai_schema (pydantic_model : ModelClass) : Json :=
  let pydantic_schema := model_json_schema pydantic_model in
  let openai_schema :=
    JObj (dict_display
            [("type", JStr "object");
             ("properties", dict_get pydantic_schema "properties" (JObj []));
             ("required", dict_get pydantic_schema "required" (JArr []));
             ("additionalProperties", JBool false)]) in
  let openai_json_schema :=
    JSONSchema (dict_get pydantic_schema "title" (JStr "GeneratedSChema"))
               openai_schema
               true in
  let response_format_json_schema :=
    ResponseFormatJSONSchema (JStr "json_schema") openai_json_schema in
  response_format_json_schema.

(** The paths the specification reads in the result:
    [convert(model).name], [.strict] and [.schema]. *)
Definition wrapper_of (r : Json) : option Json := subscript r "json_schema".

Definition name_of (r : Json) : option Json :=
  match wrapper_of r with Some w => subscript w "name" | None => None end.

Definition strict_of (r : Json) : option Json :=
  match wrapper_of r with Some w => subscript w "strict" | None => None end.

Definition schema_of (r : Json) : option Json :=
  match wrapper_of r with Some w => subscript w "schema" | None => None end.

Definition schema_field (r : Json) (k : string) : option Json :=
  match schema_of r with Some s => subscript s k | None => None end.

(** A list of strings as a JSON array. *)
Definition str_list (l : list string) : Json := JArr (map JStr l).

(** ** Schema generation of the Pydantic library

    [model_json_schema()] is code of the Pydantic library (version 2), not of
    this script.  For a class declared as a plain [BaseModel] (a name, an
    optional docstring, annotated fields with optional defaults, no aliases
    and no configuration) the library's [GenerateJsonSchema] produces the
    dictionary built here: every field gets a descriptor carrying a [title]
    derived from the field's name, a field is listed under [required] exactly
    when it has no default, the [required] key is left out when no field is
    required, and the keys of each dictionary other than [properties] come out
    sorted.  Identifiers are taken to be ASCII. *)

Inductive FieldType : Type :=
| TStr
| TInt
| TFloat
| TBool
| TList (t : FieldType).

Record FieldInfo : Type :=
  { field_name : string;
    annotation : FieldType;
    default : option Json }.

Record ModelDecl : Type :=
  { cls_name : string;
    cls_doc : option string;
    cls_fields : list FieldInfo }.

Definition is_upper (c : ascii) : bool :=
  let n := nat_of_ascii c in (65 <=? n)%nat && (n <=? 90)%nat.

Definition is_lower (c : ascii) : bool :=
  let n := nat_of_ascii c in (97 <=? n)%nat && (n <=? 122)%nat.

Definition to_upper (c : ascii) : ascii :=
  if is_lower c then ascii_of_nat (nat_of_ascii c - 32) else c.

Definition to_lower (c : ascii) : ascii :=
  if is_upper c then ascii_of_nat (nat_of_ascii c + 32) else c.

(** [str.title()]: the first letter of every run of letters in upper case,
    the others in lower case. *)
Fixpoint str_title (previous_is_cased : bool) (s : string) : string :=
  match s with
  | EmptyString => EmptyString
  | String c s' =>
      let cased := is_upper c || is_lower c in
      String (if cased
              then if previous_is_cased then to_lower c else to_upper c
              else c)
             (str_title cased s')
  end.

(** [str.replace(a, b)] for single characters. *)
Fixpoint str_replace (a b : ascii) (s : string) : string :=
  match s with
  | EmptyString => EmptyString
  | String c s' => String (if Ascii.eqb c a then b else c) (str_replace a b s')
  end.

Definition is_space (c : ascii) : bool :=
  let n := nat_of_ascii c in
  (n =? 32)%nat || ((9 <=? n)%nat && (n <=? 13)%nat)
  || ((28 <=? n)%nat && (n <=? 31)%nat).

Fixpoint str_lstrip (s : string) : string :=
  match s with
  | EmptyString => EmptyString
  | String c s' => if is_space c then str_lstrip s' else s
  end.

Fixpoint str_rstrip (s : string) : string :=
  match s with
  | EmptyString => EmptyString
  | String c s' =>
      match str_rstrip s' with
      | EmptyString => if is_space c then EmptyString else String c EmptyString
      | r => String c r
      end
  end.

Definition str_strip (s : string) : string := str_rstrip (str_lstrip s).

(** [GenerateJsonSchema.get_title_from_name]:
    [name.title().replace('_', ' ').strip()] *)
Definition get_title_from_name (name : string) : string :=
  str_strip (str_replace "_"%char " "%char (str_title false name)).

(** The schema of an annotation. *)
Fixpoint type_schema (t : FieldType) : dict :=
  match t with
  | TStr => [("type", JStr "string")]
  | TInt => [("type", JStr "integer")]
  | TFloat => [("type", JStr "number")]
  | TBool => [("type", JStr "boolean")]
  | TList t' => [("items", JObj (type_schema t')); ("type", JStr "array")]
  end.

(** [sorted(d.items())] restricted to what occurs here: one more key put at
    its alphabetical place. *)
Fixpoint sorted_insert (k : string) (v : Json) (d : dict) : dict :=
  match d with
  | [] => [(k, v)]
  | (k', v') :: d' =>
      if String.leb k k' then (k, v) :: d else (k', v') :: sorted_insert k v d'
  end.

(** The descriptor of one field. *)
Definition field_schema (f : FieldInfo) : dict :=
  let with_title :=
    sorted_insert "title" (JStr (get_title_from_name (field_name f)))
                  (type_schema (annotation f)) in
  match default f with
  | Some v => sorted_insert "default" v with_title
  | None => with_title
  end.

Definition is_required (f : FieldInfo) : bool :=
  match default f with Some _ => false | None => true end.

(** The [properties] dictionary: one assignment per field, in declaration
    order. *)
Definition properties_of (fs : list FieldInfo) : dict :=
  fold_left (fun d f => dict_set d (field_name f) (JObj (field_schema f)))
            fs [].

Definition required_of (fs : list FieldInfo) : list string :=
  map field_name (filter is_required fs).

Definition generate_schema (m : ModelDecl) : dict :=
  ((match cls_doc m with
    | Some doc => [("description", JStr doc)]
    | None => []
    end)
   ++ [("properties", JObj (properties_of (cls_fields m)))]
   ++ (match required_of (cls_fields m) with
       | [] => []
       | req => [("required", str_list req)]
       end)
   ++ [("title", JStr (cls_name m)); ("type", JStr "object")])%list.

(** The class object of a declared model. *)
Definition BaseModel (m : ModelDecl) : ModelClass :=
  {| model_json_schema := generate_schema m |}.

(** A declaration is well formed when its field names are distinct, as the
    annotations of a Python class body are. *)
Definition field_names (m : ModelDecl) : list string :=
  map field_name (cls_fields m).

(** ** The model of the script, [src/main.py] lines 26-38 *)

Definition Person_decl : ModelDecl :=
  {| cls_name := "Person";
     cls_doc := Some "A class used to represent a Person.

Attributes
----------
full_name : str
    The full name of the person.
date_of_birth : str
    The date of birth of the person in YYYY-MM-DD format.";
     cls_fields :=
       [ {| field_name := "full_name"; annotation := TStr; default := None |};
         {| field_name := "date_of_birth"; annotation := TStr;
            default := None |} ] |}.

Definition Person : ModelClass := BaseModel Person_decl.

(** [person_schema = pydantic_to_so_openai_schema(Person)], line 85 *)
Definition person_schema : Json := pydantic_to_so_openai_schema Person.

(** The literal of the specification's end-to-end scenario. *)
Definition spec_person_schema : Json :=
  JObj
    [("type", JStr "json_schema");
     ("json_schema",
      JObj
        [("name", JStr "Person");
         ("strict", JBool true);
         ("schema",
          JObj
            [("type", JStr "object");
             ("properties",
              JObj
                [("full_name", JObj [("type", JStr "string")]);
                 ("date_of_birth", JObj [("type", JStr "string")])]);
             ("required", JArr [JStr "full_name"; JStr "date_of_birth"]);
             ("additionalProperties", JBool false)])])].

(** What the script computes for [Person], the keys in the order in which
    the script inserts them. *)
Definition actual_person_schema : Json :=
  JObj
    [("type", JStr "json_schema");
     ("json_schema",
      JObj
        [("name", JStr "Person");
         ("schema",
          JObj
            [("type", JStr "object");
             ("properties",
              JObj
                [("full_name",
                  JObj [("title", JStr "Full Name"); ("type", JStr "string")]);
                 ("date_of_birth",
                  JObj [("title", JStr "Date Of Birth");
                        ("type", JStr "string")])]);
             ("required", JArr [JStr "full_name"; JStr "date_of_birth"]);
             ("additionalProperties", JBool false)]);
         ("strict", JBool true)])].

(** A JSON schema permits undeclared properties unless its
    [additionalProperties] is [false]. *)
Definition permits_extra (schema : Json) : bool :=
  match subscript schema "additionalProperties" with
  | Some (JBool false) => false
  | _ => true
  end.


(** A model in which one field has a default:
    [class Contact(BaseModel): full_name: str; nickname: str = "none"]. *)
Definition Contact_decl : ModelDecl :=
  {| cls_name := "Contact";
     cls_doc := None;
     cls_fields :=
       [ {| field_name := "full_name"; annotation := TStr; default := None |};
         {| field_name := "nickname"; annotation := TStr;
            default := Some (JStr "none") |} ] |}.

(** A class whose introspection returns bare [{type: ...}] descriptors, as a
    field-by-field mapping without titles would. *)
Definition bare_Person : ModelClass :=
  {| model_json_schema :=
       [("properties",
         JObj [("full_name", JObj [("type", JStr "string")]);
               ("date_of_birth", JObj [("type", JStr "string")])]);
        ("required", JArr [JStr "full_name"; JStr "date_of_birth"]);
        ("title", JStr "Person");
        ("type", JStr "object")] |}.

(** A class whose introspected schema has a table of definitions and allows
    undeclared properties. *)
Definition lax_model : ModelClass :=
  {| model_json_schema :=
       [("$defs",
         JObj [("Address",
                JObj [("properties",
                       JObj [("city", JObj [("title", JStr "City");
                                            ("type", JStr "string")])]);
                      ("required", JArr [JStr "city"]);
                      ("title", JStr "Address");
                      ("type", JStr "object")])]);
        ("additionalProperties", JBool true);
        ("properties",
         JObj [("home", JObj [("$ref", JStr "#/$defs/Address")])]);
        ("required", JArr [JStr "home"]);
        ("title", JStr "Resident");
        ("type", JStr "object")] |}.

(** A model without fields: [class Empty(BaseModel): pass]. *)
Definition Empty_decl : ModelDecl :=
  {| cls_name := "Empty"; cls_doc := None; cls_fields := [] |}.

(** The four keys of the output schema, in the order of the display. *)
Definition schema_keys : list string :=
  ["type"; "properties"; "required"; "additionalProperties"].

(** ** The conversion over a store of Python objects

    Dictionaries, lists and classes are objects with an identity; a variable
    or a dictionary entry holds a reference to one.  At this level one sees
    which objects a call creates, which it shares with the dictionary that
    Pydantic returned, and whether an object that existed before the call was
    touched. *)
Module Store.

Definition loc := nat.

Inductive Val : Type :=
| VNone
| VBool (b : bool)
| VInt (z : Z)
| VStr (s : string)
| VRef (l : loc).

Inductive Obj : Type :=
| ODict (items : list (string * Val))
| OList (items : list Val)
| OClass (cls : ModelClass).

(** The heap: an object's location is its index; allocation appends. *)
Definition Heap := list Obj.

Inductive Exn : Type :=
| AttributeError.

(** Computations: a heap transformer that returns a value or raises. *)
Definition M (A : Type) : Type := Heap -> (Exn + A) * Heap.

Definition ret {A} (a : A) : M A := fun h => (inr a, h).

Definition raise {A} (e : Exn) : M A := fun h => (inl e, h).

Definition bind {A B} (c : M A) (k : A -> M B) : M B :=
  fun h =>
    match c h with
    | (inr a, h') => k a h'
    | (inl e, h') => (inl e, h')
    end.

Notation "x <- c ;; k" := (bind c (fun x => k))
  (at level 61, c at next level, right associativity).

(** A fresh object. *)
Definition new (o : Obj) : M Val :=
  fun h => (inr (VRef (length h)), (h ++ [o])%list).

(** The object a value refers to.  Looking up an attribute on [None], a
    number or a string raises [AttributeError]; a location outside the heap
    does not occur in a run and is given the same answer. *)
Definition deref (v : Val) : M Obj :=
  fun h =>
    match v with
    | VRef l =>
        match nth_error h l with
        | Some o => (inr o, h)
        | None => (inl AttributeError, h)
        end
    | _ => (inl AttributeError, h)
    end.

(** One computation per element, from left to right. *)
Fixpoint traverse {A B} (f : A -> M B) (l : list A) : M (list B) :=
  match l with
  | [] => ret []
  | a :: l' => b <- f a ;; bs <- traverse f l' ;; ret (b :: bs)
  end.

(** A JSON tree built out of fresh objects, children first. *)
Fixpoint alloc_json (j : Json) : M Val :=
  match j with
  | JNull => ret VNone
  | JBool b => ret (VBool b)
  | JInt z => ret (VInt z)
  | JStr s => ret (VStr s)
  | JArr xs => vs <- traverse alloc_json xs ;; new (OList vs)
  | JObj kvs =>
      items <- traverse
                 (fun kv => v <- alloc_json (snd kv) ;; ret (fst kv, v))
                 kvs ;;
      new (ODict items)
  end.

(** [cls.model_json_schema()]: every call builds a new dictionary. *)
Definition model_json_schema (cls : Val) : M Val :=
  o <- deref cls ;;
  match o with
  | OClass c => alloc_json (JObj (model_json_schema c))
  | _ => raise AttributeError
  end.

(** [d.get(k, default)] on a reference *)
Definition get (d : Val) (k : string) (default : Val) : M Val :=
  o <- deref d ;;
  match o with
  | ODict items => ret (dict_get items k default)
  | _ => raise AttributeError
  end.

(** A dictionary display, the values already evaluated. *)
Definition display (items : list (string * Val)) : M Val :=
  new (ODict (dict_display items)).

Definition JSONSchema (name schema strict : Val) : M Val :=
  display [("name", name); ("schema", schema); ("strict", strict)].

Definition ResponseFormatJSONSchema (type json_schema : Val) : M Val :=
  display [("type", type); ("json_schema", json_schema)].

(** [src/main.py] lines 48-79.  The defaults [{}] and [[]] are evaluated,
    and so allocated, before [get] is called. *)
Definition pydantic_to_so_openai_schema (pydantic_model : Val) : M Val :=
  pydantic_schema <- model_json_schema pydantic_model ;;
  empty_dict <- new (ODict []) ;;
  properties <- get pydantic_schema "properties" empty_dict ;;
  empty_list <- new (OList []) ;;
  required <- get pydantic_schema "required" empty_list ;;
  openai_schema <-
    display [("type", VStr "object");
             ("properties", properties);
             ("required", required);
             ("additionalProperties", VBool false)] ;;
  name <- get pydantic_schema "title" (VStr "GeneratedSChema") ;;
  openai_json_schema <- JSONSchema name openai_schema (VBool true) ;;
  response_format_json_schema <-
    ResponseFormatJSONSchema (VStr "json_schema") openai_json_schema ;;
  ret response_format_json_schema.

(** All or nothing over a list. *)
Fixpoint mapM {A B} (f : A -> option B) (l : list A) : option (list B) :=
  match l with
  | [] => Some []
  | a :: l' =>
      match f a, mapM f l' with
      | Some b, Some bs => Some (b :: bs)
      | _, _ => None
      end
  end.

(** The JSON tree reachable from a value, read through at most [n]
    references in depth.  A class is not a JSON value. *)
Fixpoint reify (n : nat) (h : Heap) (v : Val) : option Json :=
  match v with
  | VNone => Some JNull
  | VBool b => Some (JBool b)
  | VInt z => Some (JInt z)
  | VStr s => Some (JStr s)
  | VRef l =>
      match n with
      | O => None
      | S n' =>
          match nth_error h l with
          | Some (OList vs) => option_map JArr (mapM (reify n' h) vs)
          | Some (ODict items) =>
              option_map JObj
                (mapM (fun it =>
                         option_map (pair (fst it)) (reify n' h (snd it)))
                      items)
          | _ => None
          end
      end
  end.

(** [v] stands for the tree [j] in the heap [h]. *)
Definition represents (h : Heap) (v : Val) (j : Json) : Prop :=
  exists n, reify n h v = Some j.

(** The entries of a dictionary object stand for the entries of a
    dictionary value, key by key. *)
Definition items_represent (h : Heap)
  : list (string * Val) -> list (string * Json) -> Prop :=
  Forall2 (fun it kv => fst it = fst kv /\ represents h (snd it) (snd kv)).

(** A computation that only allocates: the heap it leaves is the heap it
    found, followed by new objects. *)
Definition allocates_only {A} (c : M A) : Prop :=
  forall h, exists e, snd (c h) = h ++ e.

(** A computation that returns in every heap, with a result described by
    [Q]. *)
Definition returns {A} (c : M A) (Q : Heap -> A -> Prop) : Prop :=
  forall h, exists a e, c h = (inr a, h ++ e) /\ Q (h ++ e) a.

(** A heap that holds the class objects of [Person] and of [Empty]. *)
Definition person_heap : Heap :=
  [OClass Person; OClass (BaseModel Empty_decl)].

(** The part of the state that a call found: the first [n] objects. *)
Definition before (n : nat) (h : Heap) : Heap := firstn n h.


(** The objects that the body of the function allocates after the call of
    [model_json_schema], in order: the two defaults, the schema, the wrapper
    and the response format.  [n] is the size of the heap at that point and
    [items] the entries of the dictionary that the introspection returned. *)
Definition call_objects (n : nat) (items : list (string * Val)) : list Obj :=
  [ ODict [];
    OList [];
    ODict [("type", VStr "object");
           ("properties", dict_get items "properties" (VRef n));
           ("required", dict_get items "required" (VRef (n + 1)));
           ("additionalProperties", VBool false)];
    ODict [("name", dict_get items "title" (VStr "GeneratedSChema"));
           ("schema", VRef (n + 2));
           ("strict", VBool true)];
    ODict [("type", VStr "json_schema");
           ("json_schema", VRef (n + 3))] ].

(** [v[k1][k2]...]: the value reached by successive subscripts, without
    reading the objects it refers to. *)
Fixpoint path (h : Heap) (v : Val) (ks : list string) : option Val :=
  match ks with
  | [] => Some v
  | k :: ks' =>
      match v with
      | VRef l =>
          match nth_error h l with
          | Some (ODict items) =>
              match dict_lookup items k with
              | Some v' => path h v' ks'
              | None => None
              end
          | _ => None
          end
      | _ => None
      end
  end.

(** [v] stands for [j] through the objects [e] alone, placed from location
    [n] on: whatever the objects below [n] are. *)
Definition built_in (n : nat) (e : list Obj) (v : Val) (j : Json) : Prop :=
  forall h, length h = n -> represents (h ++ e) v j.

(** A computation that returns in every heap, its result described in terms
    of the size of the heap it found and of the objects it added. *)
Definition returns_local {A} (c : M A) (Q : nat -> list Obj -> A -> Prop)
  : Prop :=
  forall h, exists a e, c h = (inr a, h ++ e) /\ Q (length h) e a.

End Store.

(** ** Dictionaries: basic facts *)

Section DictFacts.

Context {V : Type}.
Implicit Types (d : list (string * V)) (k : string) (v : V).

Lemma dict_lookup_get d k (dflt : V) :
  dict_get d k dflt =
  match dict_lookup d k with Some v => v | None => dflt end.
Proof.
  induction d as [|[k' v] d IH]; simpl; [reflexivity|].
  destruct (String.eqb k' k); [reflexivity | exact IH].
Qed.

Lemma keys_dict_set_fresh d k v :
  ~ In k (keys d) -> keys (dict_set d k v) = (keys d ++ [k])%list.
Proof.
  induction d as [|[k' v'] d IH]; simpl; intros Hk; [reflexivity|].
  destruct (String.eqb_spec k' k) as [->|_]; [tauto|].
  simpl. f_equal. apply IH. tauto.
Qed.

Lemma keys_dict_set_incl d k k0 v :
  In k0 (keys (dict_set d k v)) <-> k0 = k \/ In k0 (keys d).
Proof.
  induction d as [|[k' v'] d IH]; simpl.
  - intuition congruence.
  - destruct (String.eqb_spec k' k) as [->|Hne]; simpl.
    + intuition congruence.
    + rewrite IH. intuition congruence.
Qed.

End DictFacts.

(** ** What the conversion puts where

    The result is built from constants and from three lookups in the
    introspected schema; each path of the result is determined by
    computation. *)

Section Shape.

Variable m : ModelClass.

Lemma schema_of_convert :
  schema_of (pydantic_to_so_openai_schema m) =
  Some (JObj [("type", JStr "object");
              ("properties",
               dict_get (model_json_schema m) "properties" (JObj []));
              ("required",
               dict_get (model_json_schema m) "required" (JArr []));
              ("additionalProperties", JBool false)]).
Proof. reflexivity. Qed.

Lemma properties_of_convert :
  schema_field (pydantic_to_so_openai_schema m) "properties" =
  Some (dict_get (model_json_schema m) "properties" (JObj [])).
Proof. reflexivity. Qed.

Lemma required_of_convert :
  schema_field (pydantic_to_so_openai_schema m) "required" =
  Some (dict_get (model_json_schema m) "required" (JArr [])).
Proof. reflexivity. Qed.

Lemma additional_of_convert :
  schema_field (pydantic_to_so_openai_schema m) "additionalProperties" =
  Some (JBool false).
Proof. reflexivity. Qed.

Lemma name_of_convert :
  name_of (pydantic_to_so_openai_schema m) =
  Some (dict_get (model_json_schema m) "title" (JStr "GeneratedSChema")).
Proof. reflexivity. Qed.

End Shape.

(** ** The introspected schema of a declared model *)

Section Generated.

Variable m : ModelDecl.

Lemma generated_properties :
  dict_get (generate_schema m) "properties" (JObj []) =
  JObj (properties_of (cls_fields m)).
Proof.
  unfold generate_schema.
  destruct (cls_doc m); reflexivity.
Qed.

Lemma generated_required :
  dict_get (generate_schema m) "required" (JArr []) =
  str_list (required_of (cls_fields m)).
Proof.
  unfold generate_schema.
  destruct (cls_doc m); destruct (required_of (cls_fields m)); reflexivity.
Qed.

Lemma generated_title :
  dict_lookup (generate_schema m) "title" = Some (JStr (cls_name m)).
Proof.
  unfold generate_schema.
  destruct (cls_doc m); destruct (required_of (cls_fields m)); reflexivity.
Qed.

End Generated.

(** The keys of [properties]: assignments of distinct names pile up in
    order. *)
Lemma keys_properties_from (fs : list FieldInfo) (d : dict) :
  NoDup (keys d ++ map field_name fs) ->
  keys (fold_left
          (fun d f => dict_set d (field_name f) (JObj (field_schema f))) fs d)
  = (keys d ++ map field_name fs)%list.
Proof.
  revert d. induction fs as [|f fs IH]; intros d Hnd; simpl.
  - now rewrite app_nil_r.
  - assert (Hfresh : ~ In (field_name f) (keys d)).
    { simpl in Hnd. apply NoDup_remove_2 in Hnd.
      intros Hin. apply Hnd. apply in_or_app. now left. }
    rewrite IH; rewrite (keys_dict_set_fresh _ _ _ Hfresh).
    + now rewrite <- app_assoc.
    + rewrite <- app_assoc. exact Hnd.
Qed.

Lemma keys_properties_of (fs : list FieldInfo) :
  NoDup (map field_name fs) ->
  keys (properties_of fs) = map field_name fs.
Proof. intros Hnd. apply (keys_properties_from fs []). exact Hnd. Qed.

(** Every declared field is a key of [properties], distinct names or not. *)
Lemma keys_properties_mem (fs : list FieldInfo) (d : dict) (k : string) :
  In k (keys d) \/ In k (map field_name fs) ->
  In k (keys (fold_left
                (fun d f => dict_set d (field_name f) (JObj (field_schema f)))
                fs d)).
Proof.
  revert d. induction fs as [|f fs IH]; intros d H; simpl in *.
  - tauto.
  - apply IH. rewrite keys_dict_set_incl.
    destruct H as [H|[H|H]]; auto.
Qed.

Lemma required_all (fs : list FieldInfo) :
  (forall f, In f fs -> default f = None) ->
  required_of fs = map field_name fs.
Proof.
  unfold required_of. induction fs as [|f fs IH]; intros H; simpl.
  - reflexivity.
  - unfold is_required at 1. rewrite (H f (or_introl eq_refl)).
    simpl. f_equal. apply IH. intros g Hg. apply H. now right.
Qed.

(** With distinct names, a field that has a default is not required. *)
Lemma required_excludes_default (fs : list FieldInfo) (f : FieldInfo) :
  NoDup (map field_name fs) -> In f fs -> default f <> None ->
  ~ In (field_name f) (required_of fs).
Proof.
  unfold required_of.
  induction fs as [|g fs IH]; intros Hnd Hin Hdef; simpl in *; [tauto|].
  inversion Hnd as [|? ? Hg Hnd']; subst.
  destruct Hin as [->|Hin].
  - unfold is_required at 1. destruct (default f) eqn:E; [|congruence].
    intros H. apply Hg.
    apply in_map_iff in H. destruct H as (x & Hx & Hf).
    apply filter_In in Hf. rewrite <- Hx. apply in_map. tauto.
  - destruct (is_required g); simpl.
    + intros [H|H].
      * apply Hg. rewrite H. now apply in_map.
      * now apply IH.
    + now apply IH.
Qed.

Lemma In_JStr_map (k : string) (l : list string) :
  In (JStr k) (map JStr l) <-> In k l.
Proof.
  rewrite in_map_iff. split.
  - intros (x & Hx & Hin). now inversion Hx; subst.
  - intros H. now exists k.
Qed.

(** ** The claims about the converted value *)

(** C1: for a declared model whose fields [f1..fn] have no defaults, the
    [properties] of the output schema has exactly the keys [f1..fn], and its
    [required] list is [f1..fn] in declaration order. *)
Theorem required_fields_in_declaration_order (m : ModelDecl) :
  NoDup (field_names m) ->
  (forall f, In f (cls_fields m) -> default f = None) ->
  exists props,
    schema_field (pydantic_to_so_openai_schema (BaseModel m)) "properties"
    = Some (JObj props) /\
    keys props = field_names m /\
    schema_field (pydantic_to_so_openai_schema (BaseModel m)) "required"
    = Some (str_list (field_names m)).
Proof.
  intros Hnd Hdef.
  exists (properties_of (cls_fields m)).
  rewrite properties_of_convert, required_of_convert. simpl.
  rewrite generated_properties, generated_required.
  rewrite (required_all _ Hdef).
  repeat split. now apply keys_properties_of.
Qed.

Lemma required_fields_in_declaration_order_witness :
  NoDup (field_names Person_decl) /\
  (forall f, In f (cls_fields Person_decl) -> default f = None) /\
  exists props,
    schema_field person_schema "properties" = Some (JObj props) /\
    keys props = ["full_name"; "date_of_birth"] /\
    schema_field person_schema "required"
    = Some (JArr [JStr "full_name"; JStr "date_of_birth"]).
Proof.
  assert (Hnd : NoDup (field_names Person_decl)).
  { repeat constructor; simpl; intuition discriminate. }
  assert (Hdef : forall f, In f (cls_fields Person_decl) -> default f = None).
  { intros f [<-|[<-|[]]]; reflexivity. }
  split; [exact Hnd|]. split; [exact Hdef|].
  exact (required_fields_in_declaration_order Person_decl Hnd Hdef).
Defined.

(** C2: whatever the model, one without fields included, the output schema
    has [additionalProperties] equal to [False]; the value is a constant of
    the function and stays [False] whatever the introspected schema says
    under that key. *)
Theorem additional_properties_false :
  (forall m : ModelClass,
      schema_field (pydantic_to_so_openai_schema m) "additionalProperties"
      = Some (JBool false)) /\
  (forall (s : dict) (v : Json),
      schema_field
        (pydantic_to_so_openai_schema
           {| model_json_schema := dict_set s "additionalProperties" v |})
        "additionalProperties"
      = Some (JBool false)) /\
  (forall (name : string) (doc : option string),
      let empty :=
        BaseModel {| cls_name := name; cls_doc := doc; cls_fields := [] |} in
      schema_field (pydantic_to_so_openai_schema empty) "properties"
      = Some (JObj []) /\
      schema_field (pydantic_to_so_openai_schema empty) "required"
      = Some (JArr []) /\
      schema_field (pydantic_to_so_openai_schema empty) "additionalProperties"
      = Some (JBool false)).
Proof.
  split; [|split].
  - intros m. apply additional_of_convert.
  - intros s v. apply additional_of_convert.
  - intros name doc empty. subst empty.
    rewrite properties_of_convert, required_of_convert. simpl.
    rewrite generated_properties, generated_required.
    repeat split.
Qed.

(** Claim C3 as the specification states it fails: each descriptor that
    Pydantic generates carries a [title] next to the [type], and the function
    passes [properties] on as it is.  The comparison is Python's [==], which
    does not look at the order of keys. *)
Lemma person_schema_is_not_the_spec_literal :
  py_eq person_schema spec_person_schema = false /\
  person_schema <> spec_person_schema.
Proof.
  split; [reflexivity|].
  intros H. apply (f_equal (fun j => py_eq j spec_person_schema)) in H.
  vm_compute in H. discriminate.
Qed.

(** C3, amended: for [Person], with the two required string fields
    [full_name] and [date_of_birth], the function returns
    [{type: "json_schema", json_schema: {name: "Person", schema: {type:
    "object", properties: {full_name: {title: "Full Name", type: "string"},
    date_of_birth: {title: "Date Of Birth", type: "string"}}, required:
    ["full_name", "date_of_birth"], additionalProperties: False}, strict:
    True}}]: the literal of the specification with the generated [title] in
    each descriptor. *)
Theorem person_schema_value :
  person_schema = actual_person_schema.
Proof. reflexivity. Qed.

(** The literal of the specification is what the function returns for a class
    whose introspection yields bare descriptors. *)
Lemma bare_descriptors_give_the_spec_literal :
  py_eq (pydantic_to_so_openai_schema bare_Person) spec_person_schema = true.
Proof. reflexivity. Qed.

(** C4: whatever the model, the output schema is a dictionary whose [type] is
    the constant ["object"] and that permits no undeclared property, whether
    or not the introspected schema did; for a declared model, moreover,
    [properties] is a dictionary and every name under [required] is one of
    its keys. *)
Theorem output_is_closed_object_schema :
  (forall m : ModelClass,
      exists d,
        schema_of (pydantic_to_so_openai_schema m) = Some (JObj d) /\
        dict_lookup d "type" = Some (JStr "object") /\
        permits_extra (JObj d) = false) /\
  (forall m : ModelDecl,
      exists props req,
        schema_field (pydantic_to_so_openai_schema (BaseModel m)) "properties"
        = Some (JObj props) /\
        schema_field (pydantic_to_so_openai_schema (BaseModel m)) "required"
        = Some (str_list req) /\
        incl req (keys props)).
Proof.
  split.
  - intros m. rewrite schema_of_convert. eexists. split; [reflexivity|].
    split; reflexivity.
  - intros m.
    exists (properties_of (cls_fields m)), (required_of (cls_fields m)).
    rewrite properties_of_convert, required_of_convert. simpl.
    rewrite generated_properties, generated_required.
    repeat split.
    intros k Hk. apply keys_properties_mem. right.
    unfold required_of in Hk. apply in_map_iff in Hk.
    destruct Hk as (f & <- & Hf). apply filter_In in Hf.
    apply in_map. tauto.
Qed.

(** The introspected schema of [lax_model] permits undeclared properties;
    the output schema permits none. *)
Example lax_model_is_closed :
  permits_extra (JObj (model_json_schema lax_model)) = true /\
  option_map permits_extra (schema_of (pydantic_to_so_openai_schema lax_model))
  = Some false.
Proof. split; reflexivity. Qed.

(** In the same output the descriptor of [home] still refers to the table of
    definitions, which did not come through. *)
Example lax_model_reference_dangles :
  match schema_field (pydantic_to_so_openai_schema lax_model) "properties" with
  | Some properties => subscript properties "home"
  | None => None
  end = Some (JObj [("$ref", JStr "#/$defs/Address")]) /\
  schema_field (pydantic_to_so_openai_schema lax_model) "$defs" = None.
Proof. split; reflexivity. Qed.

(** C6: the wrapper's [name] is the [title] of the introspected schema when
    there is one and the fixed string ["GeneratedSChema"] when there is none,
    and its [strict] is [True]; for a declared model the title is the name of
    the class. *)
Theorem wrapper_name_and_strict :
  (forall m : ModelClass,
      name_of (pydantic_to_so_openai_schema m)
      = Some (match dict_lookup (model_json_schema m) "title" with
              | Some title => title
              | None => JStr "GeneratedSChema"
              end) /\
      strict_of (pydantic_to_so_openai_schema m) = Some (JBool true)) /\
  (forall m : ModelDecl,
      name_of (pydantic_to_so_openai_schema (BaseModel m))
      = Some (JStr (cls_name m))).
Proof.
  split.
  - intros m. rewrite name_of_convert, dict_lookup_get. split; reflexivity.
  - intros m. rewrite name_of_convert, dict_lookup_get. simpl.
    now rewrite generated_title.
Qed.

(** C9: whatever the model, the output schema has the four keys [type],
    [properties], [required] and [additionalProperties] and no other; a
    [title], a [description] or a [$defs] table of the introspected schema
    does not come through. *)
Theorem schema_has_exactly_four_keys (m : ModelClass) :
  exists d,
    schema_of (pydantic_to_so_openai_schema m) = Some (JObj d) /\
    keys d = schema_keys /\
    (forall k, dict_mem d k = existsb (String.eqb k) schema_keys) /\
    dict_mem d "title" = false /\
    dict_mem d "description" = false /\
    dict_mem d "$defs" = false.
Proof.
  rewrite schema_of_convert. eexists. split; [reflexivity|].
  split; [reflexivity|]. split; [|repeat split].
  intros k. simpl. unfold schema_keys. simpl.
  rewrite !(String.eqb_sym k). reflexivity.
Qed.

(** C10: in a declared model, a field that has a default value is a key of
    the output [properties] and is not listed in the output [required], which
    is the [required] list of the introspected schema as it stands. *)
Theorem defaulted_field_not_required (m : ModelDecl) (f : FieldInfo) :
  NoDup (field_names m) ->
  In f (cls_fields m) ->
  default f <> None ->
  exists props req,
    schema_field (pydantic_to_so_openai_schema (BaseModel m)) "properties"
    = Some (JObj props) /\
    schema_field (pydantic_to_so_openai_schema (BaseModel m)) "required"
    = Some (JArr req) /\
    In (field_name f) (keys props) /\
    ~ In (JStr (field_name f)) req /\
    JArr req = dict_get (generate_schema m) "required" (JArr []).
Proof.
  intros Hnd Hin Hdef.
  exists (properties_of (cls_fields m)),
         (map JStr (required_of (cls_fields m))).
  rewrite properties_of_convert, required_of_convert. simpl.
  rewrite generated_properties, generated_required.
  repeat split.
  - apply keys_properties_mem. right. now apply in_map.
  - rewrite In_JStr_map. now apply required_excludes_default.
Qed.

Lemma defaulted_field_not_required_witness :
  let nickname :=
    {| field_name := "nickname"; annotation := TStr;
       default := Some (JStr "none") |} in
  NoDup (field_names Contact_decl) /\
  In nickname (cls_fields Contact_decl) /\
  default nickname <> None /\
  exists props req,
    schema_field (pydantic_to_so_openai_schema (BaseModel Contact_decl))
                 "properties" = Some (JObj props) /\
    schema_field (pydantic_to_so_openai_schema (BaseModel Contact_decl))
                 "required" = Some (JArr req) /\
    In "nickname" (keys props) /\
    ~ In (JStr "nickname") req /\
    JArr req = dict_get (generate_schema Contact_decl) "required" (JArr []).
Proof.
  intros nickname.
  assert (Hnd : NoDup (field_names Contact_decl)).
  { repeat constructor; simpl; intuition discriminate. }
  assert (Hin : In nickname (cls_fields Contact_decl)).
  { simpl. right. left. reflexivity. }
  assert (Hdef : default nickname <> None) by discriminate.
  split; [exact Hnd|]. split; [exact Hin|]. split; [exact Hdef|].
  exact (defaulted_field_not_required Contact_decl nickname Hnd Hin Hdef).
Defined.

(** ** The store: reading trees back *)

Section StoreFacts.


Lemma mapM_Forall2 {A B} (f : A -> option B) (l : list A) (bs : list B) :
  Store.mapM f l = Some bs <-> Forall2 (fun a b => f a = Some b) l bs.
Proof.
  revert bs. induction l as [|a l IH]; intros bs; simpl.
  - split.
    + intros H. inversion H. constructor.
    + intros H. inversion H. reflexivity.
  - destruct (f a) as [b|] eqn:Ea.
    + destruct (Store.mapM f l) as [bs'|] eqn:El.
      * split.
        -- intros H. inversion H; subst. constructor; [exact Ea|].
           now apply IH.
        -- intros H. inversion H as [|? ? ? ? Hb Hl]; subst.
           apply IH in Hl. congruence.
      * split; [discriminate|].
        intros H. inversion H as [|? ? ? ? Hb Hl]; subst.
        apply IH in Hl. discriminate.
    + split; [discriminate|].
      intros H. inversion H; subst. congruence.
Qed.

Lemma nth_error_ext (h e : Store.Heap) (l : Store.loc) (o : Store.Obj) :
  nth_error h l = Some o -> nth_error (h ++ e) l = Some o.
Proof.
  intros H. rewrite nth_error_app1; [exact H|].
  apply nth_error_Some. congruence.
Qed.

(** More fuel and a longer heap read the same tree. *)
Lemma reify_mono (n : nat) :
  forall (n' : nat) (h e : Store.Heap) (v : Store.Val) (j : Json),
    n <= n' -> Store.reify n h v = Some j -> Store.reify n' (h ++ e) v = Some j.
Proof.
  induction n as [|n IH]; intros n' h e v j Hle H.
  - destruct v; simpl in *; try discriminate;
      destruct n'; simpl; exact H.
  - destruct v as [| | | |l]; try (destruct n'; simpl in *; exact H).
    destruct n' as [|n']; [lia|]. simpl in *.
    destruct (nth_error h l) as [o|] eqn:El; [|discriminate].
    rewrite (nth_error_ext _ e _ _ El).
    destruct o as [items|items|cls]; [| |discriminate].
    + destruct (Store.mapM _ items) as [kvs|] eqn:Em; [|discriminate].
      apply mapM_Forall2 in Em.
      assert (Em' : Store.mapM
                      (fun it =>
                         option_map (pair (fst it))
                                    (Store.reify n' (h ++ e) (snd it)))
                      items = Some kvs).
      { apply mapM_Forall2.
        eapply Forall2_impl; [|exact Em]. cbv beta.
        intros it kv Hit.
        destruct (Store.reify n h (snd it)) as [x|] eqn:Ex; [|discriminate].
        rewrite (IH n' h e _ _ ltac:(lia) Ex). exact Hit. }
      rewrite Em'. exact H.
    + destruct (Store.mapM _ items) as [js|] eqn:Em; [|discriminate].
      apply mapM_Forall2 in Em.
      assert (Em' : Store.mapM (Store.reify n' (h ++ e)) items = Some js).
      { apply mapM_Forall2.
        eapply Forall2_impl; [|exact Em]. cbv beta.
        intros x y Hx. apply IH; [lia | exact Hx]. }
      rewrite Em'. exact H.
Qed.

Lemma represents_ext (h e : Store.Heap) (v : Store.Val) (j : Json) :
  Store.represents h v j -> Store.represents (h ++ e) v j.
Proof.
  intros [n H]. exists n. now apply reify_mono with (n := n).
Qed.

(** A value stands for at most one tree. *)
Lemma represents_functional (h : Store.Heap) (v : Store.Val) (j1 j2 : Json) :
  Store.represents h v j1 -> Store.represents h v j2 -> j1 = j2.
Proof.
  intros [n1 H1] [n2 H2].
  apply (reify_mono n1 (Nat.max n1 n2) h [] v j1) in H1; [|lia].
  apply (reify_mono n2 (Nat.max n1 n2) h [] v j2) in H2; [|lia].
  congruence.
Qed.

Lemma items_represent_ext (h e : Store.Heap) items kvs :
  Store.items_represent h items kvs -> Store.items_represent (h ++ e) items kvs.
Proof.
  intros H. eapply Forall2_impl; [|exact H]. cbv beta.
  intros it kv [Hk Hv]. split; [exact Hk|]. now apply represents_ext.
Qed.

(** One amount of fuel serves all the entries. *)
Lemma items_common_fuel (h : Store.Heap) items kvs :
  Store.items_represent h items kvs ->
  exists n,
    Forall2 (fun it kv =>
               option_map (pair (fst it)) (Store.reify n h (snd it)) = Some kv)
            items kvs.
Proof.
  induction 1 as [|it kv items kvs [Hk [n1 Hv]] _ [n2 IH]].
  - exists 0. constructor.
  - exists (Nat.max n1 n2). constructor.
    + apply (reify_mono n1 (Nat.max n1 n2) h [] _ _) in Hv; [|lia].
      rewrite app_nil_r in Hv. rewrite Hv. simpl.
      rewrite Hk. now destruct kv.
    + eapply Forall2_impl; [|exact IH]. cbv beta.
      intros it' kv' H'.
      destruct (Store.reify n2 h (snd it')) as [x|] eqn:Ex; [|discriminate].
      apply (reify_mono n2 (Nat.max n1 n2) h [] _ _) in Ex; [|lia].
      rewrite app_nil_r in Ex. now rewrite Ex.
Qed.

Lemma represents_dict (h : Store.Heap) (l : Store.loc) items kvs :
  nth_error h l = Some (Store.ODict items) ->
  Store.items_represent h items kvs ->
  Store.represents h (Store.VRef l) (JObj kvs).
Proof.
  intros Hl H. destruct (items_common_fuel _ _ _ H) as [n Hn].
  exists (S n). simpl. rewrite Hl.
  apply mapM_Forall2 in Hn. now rewrite Hn.
Qed.

Lemma values_common_fuel (h : Store.Heap) (vs : list Store.Val) (js : list Json) :
  Forall2 (Store.represents h) vs js ->
  exists n, Forall2 (fun v j => Store.reify n h v = Some j) vs js.
Proof.
  induction 1 as [|v j vs js [n1 Hv] _ [n2 IH]].
  - exists 0. constructor.
  - exists (Nat.max n1 n2). constructor.
    + apply (reify_mono n1 (Nat.max n1 n2) h [] _ _) in Hv; [|lia].
      now rewrite app_nil_r in Hv.
    + eapply Forall2_impl; [|exact IH]. cbv beta.
      intros v' j' H'.
      apply (reify_mono n2 (Nat.max n1 n2) h [] _ _) in H'; [|lia].
      now rewrite app_nil_r in H'.
Qed.

Lemma represents_list (h : Store.Heap) (l : Store.loc) vs js :
  nth_error h l = Some (Store.OList vs) ->
  Forall2 (Store.represents h) vs js ->
  Store.represents h (Store.VRef l) (JArr js).
Proof.
  intros Hl H. destruct (values_common_fuel _ _ _ H) as [n Hn].
  exists (S n). simpl. rewrite Hl.
  apply mapM_Forall2 in Hn. now rewrite Hn.
Qed.

(** A value that stands for a dictionary is a reference to a dictionary
    object with the same keys. *)
Lemma represents_dict_inv (h : Store.Heap) (v : Store.Val) kvs :
  Store.represents h v (JObj kvs) ->
  exists l items,
    v = Store.VRef l /\ nth_error h l = Some (Store.ODict items) /\
    Store.items_represent h items kvs.
Proof.
  intros [n H].
  destruct v as [| | | |l]; try (destruct n; simpl in H; discriminate).
  destruct n as [|n]; [discriminate|]. simpl in H.
  destruct (nth_error h l) as [[items|items|cls]|] eqn:El;
    try discriminate.
  - destruct (Store.mapM _ items) as [kvs'|] eqn:Em; [|discriminate].
    simpl in H. inversion H; subst kvs'.
    exists l, items. split; [reflexivity|]. split; [exact El|].
    apply mapM_Forall2 in Em.
    eapply Forall2_impl; [|exact Em]. cbv beta.
    intros it kv Hit.
    destruct (Store.reify n h (snd it)) as [x|] eqn:Ex; [|discriminate].
    simpl in Hit. inversion Hit; subst kv. simpl.
    split; [reflexivity|]. now exists n.
  - destruct (Store.mapM _ items); discriminate.
Qed.

(** [get] on the object agrees with [get] on the value. *)
Lemma dict_get_represents (h : Store.Heap) items kvs (k : string)
      (dv : Store.Val) (dj : Json) :
  Store.items_represent h items kvs ->
  Store.represents h dv dj ->
  Store.represents h (dict_get items k dv) (dict_get kvs k dj).
Proof.
  intros H Hd. induction H as [|it kv items kvs [Hk Hv] _ IH]; simpl.
  - exact Hd.
  - destruct it as [k1 v1], kv as [k2 j2]. simpl in *. subst k2.
    destruct (String.eqb k1 k); [exact Hv | exact IH].
Qed.

End StoreFacts.

(** ** The store: what a run does *)

Section StoreRuns.


Lemma traverse_returns {A B} (f : A -> Store.M B) (R : Store.Heap -> B -> A -> Prop)
      (l : list A) :
  (forall h e b a, R h b a -> R (h ++ e) b a) ->
  Forall (fun a => Store.returns (f a) (fun h b => R h b a)) l ->
  Store.returns (Store.traverse f l) (fun h bs => Forall2 (R h) bs l).
Proof.
  intros Hext Hl. induction Hl as [|a l Ha _ IH]; intros h; simpl.
  - exists [], []. rewrite app_nil_r. split; [reflexivity | constructor].
  - destruct (Ha h) as (b & e1 & Hrun1 & Hb).
    destruct (IH (h ++ e1)) as (bs & e2 & Hrun2 & Hbs).
    exists (b :: bs), (e1 ++ e2).
    unfold Store.bind. rewrite Hrun1, Hrun2. unfold Store.ret.
    rewrite app_assoc. split; [reflexivity|].
    constructor; [now apply Hext | exact Hbs].
Qed.

Lemma alloc_json_dict (kvs : list (string * Json)) (h : Store.Heap) :
  Store.alloc_json (JObj kvs) h =
  Store.bind
    (Store.traverse
       (fun kv => Store.bind (Store.alloc_json (snd kv))
                             (fun v => Store.ret (fst kv, v))) kvs)
    (fun items => Store.new (Store.ODict items)) h.
Proof. reflexivity. Qed.

(** Allocating a tree returns a value that stands for the tree. *)
Lemma alloc_json_returns (j : Json) :
  Store.returns (Store.alloc_json j) (fun h v => Store.represents h v j).
Proof.
  induction j as [| b | z | s | xs IH | kvs IH] using Json_tree_ind;
    try (intros h; eexists; exists []; rewrite app_nil_r;
         split; [reflexivity | exists 0; reflexivity]).
  - intros h.
    destruct (traverse_returns Store.alloc_json Store.represents xs
                (fun h e b a => represents_ext h e b a) IH h)
      as (vs & e & Hrun & Hvs).
    exists (Store.VRef (length (h ++ e))), (e ++ [Store.OList vs]).
    simpl. unfold Store.bind. rewrite Hrun. unfold Store.new.
    rewrite app_assoc. split; [reflexivity|].
    apply represents_list with (vs := vs).
    + rewrite nth_error_app2 by lia. now rewrite Nat.sub_diag.
    + eapply Forall2_impl; [|exact Hvs]. cbv beta.
      intros v x Hv. now apply represents_ext.
  - intros h.
    assert (Hkv : Forall
                    (fun kv =>
                       Store.returns (Store.bind (Store.alloc_json (snd kv)) (fun v => Store.ret (fst kv, v)))
                               (fun h it =>
                                  fst it = fst kv /\
                                  Store.represents h (snd it) (snd kv)))
                    kvs).
    { eapply Forall_impl; [|exact IH]. cbv beta.
      intros kv Hkv h0. destruct (Hkv h0) as (v & e & Hrun & Hv).
      exists (fst kv, v), e. unfold Store.bind. rewrite Hrun. unfold Store.ret.
      split; [reflexivity|]. split; [reflexivity | exact Hv]. }
    destruct (traverse_returns _
                (fun h it kv =>
                   fst it = fst kv /\ Store.represents h (snd it) (snd kv))
                kvs
                (fun h e it kv H =>
                   conj (proj1 H) (represents_ext h e _ _ (proj2 H)))
                Hkv h)
      as (items & e & Hrun & Hitems).
    exists (Store.VRef (length (h ++ e))), (e ++ [Store.ODict items]).
    rewrite alloc_json_dict. unfold Store.bind at 1. rewrite Hrun. unfold Store.new.
    rewrite app_assoc. split; [reflexivity|].
    apply represents_dict with (items := items).
    + rewrite nth_error_app2 by lia. now rewrite Nat.sub_diag.
    + apply items_represent_ext. exact Hitems.
Qed.

Lemma model_json_schema_run (h : Store.Heap) (c : Store.loc) (m : ModelClass) :
  nth_error h c = Some (Store.OClass m) ->
  Store.model_json_schema (Store.VRef c) h
  = Store.alloc_json (JObj (model_json_schema m)) h.
Proof.
  intros H. unfold Store.model_json_schema, Store.bind, Store.deref. now rewrite H.
Qed.

Lemma get_run (h : Store.Heap) (l : Store.loc) items (k : string) (d : Store.Val) :
  nth_error h l = Some (Store.ODict items) ->
  Store.get (Store.VRef l) k d h = (inr (dict_get items k d), h).
Proof.
  intros H. unfold Store.get, Store.bind, Store.deref. now rewrite H.
Qed.

Lemma nth_error_last (h : Store.Heap) (o : Store.Obj) :
  nth_error (h ++ [o]) (length h) = Some o.
Proof. rewrite nth_error_app2 by lia. now rewrite Nat.sub_diag. Qed.

Lemma represents_atom (h : Store.Heap) (v : Store.Val) (j : Json) :
  Store.reify 0 h v = Some j -> Store.represents h v j.
Proof. intros H. now exists 0. Qed.

(** The run of the function on a class object: it returns, the heap it
    leaves extends the heap it found, and the value it returns stands for
    the result of the function over values. *)
Lemma convert_returns (h : Store.Heap) (c : Store.loc) (m : ModelClass) :
  nth_error h c = Some (Store.OClass m) ->
  exists v h',
    Store.pydantic_to_so_openai_schema (Store.VRef c) h = (inr v, h') /\
    (exists e, h' = h ++ e) /\
    Store.represents h' v (pydantic_to_so_openai_schema m).
Proof.
  intros Hc.
  destruct (alloc_json_returns (JObj (model_json_schema m)) h)
    as (v0 & e0 & Hrun0 & Hrep0).
  destruct (represents_dict_inv _ _ _ Hrep0) as (l0 & items & -> & Hl0 & Hit).
  unfold Store.pydantic_to_so_openai_schema.
  unfold Store.bind at 1. rewrite (model_json_schema_run _ _ _ Hc), Hrun0.
  remember (h ++ e0) as h1 eqn:Eh1.
  unfold Store.bind at 1. unfold Store.new at 1.
  unfold Store.bind at 1.
  rewrite (get_run _ l0 items) by (repeat apply nth_error_ext; exact Hl0).
  unfold Store.bind at 1. unfold Store.new at 1.
  unfold Store.bind at 1.
  rewrite (get_run _ l0 items) by (repeat apply nth_error_ext; exact Hl0).
  unfold Store.bind at 1. unfold Store.display at 1, Store.new at 1.
  unfold Store.bind at 1.
  rewrite (get_run _ l0 items) by (repeat apply nth_error_ext; exact Hl0).
  unfold Store.bind at 1.
  unfold Store.JSONSchema, Store.display at 1, Store.new at 1.
  unfold Store.bind at 1.
  unfold Store.ResponseFormatJSONSchema, Store.display at 1, Store.new at 1.
  unfold Store.ret.
  assert (Hp : Store.represents (h1 ++ [Store.ODict []])
                 (dict_get items "properties"
                           (Store.VRef (length h1)))
                 (dict_get (model_json_schema m) "properties" (JObj []))).
  { apply dict_get_represents; [now apply items_represent_ext|].
    apply represents_dict with (items := []);
      [apply nth_error_last | constructor]. }
  assert (Hq : Store.represents
                 ((h1 ++ [Store.ODict []]) ++ [Store.OList []])
                 (dict_get items "required"
                           (Store.VRef (length (h1 ++ [Store.ODict []]))))
                 (dict_get (model_json_schema m) "required" (JArr []))).
  { apply dict_get_represents; [now do 2 apply items_represent_ext|].
    apply represents_list with (vs := []);
      [apply nth_error_last | constructor]. }
  assert (Ht : Store.represents h1
                 (dict_get items "title" (Store.VStr "GeneratedSChema"))
                 (dict_get (model_json_schema m) "title"
                           (JStr "GeneratedSChema"))).
  { apply dict_get_represents; [exact Hit | now apply represents_atom]. }
  eexists. eexists. split; [reflexivity|]. split.
  { eexists. subst h1. rewrite <- !app_assoc. reflexivity. }
  unfold pydantic_to_so_openai_schema, ResponseFormatJSONSchema, JSONSchema.
  eapply represents_dict; [apply nth_error_last|].
  repeat constructor; try (now apply represents_atom).
  eapply represents_ext.
  eapply represents_dict; [apply nth_error_last|].
  repeat constructor; try (now apply represents_atom).
  - now do 4 apply represents_ext.
  - eapply represents_ext.
    eapply represents_dict; [apply nth_error_last|].
    repeat constructor; try (now apply represents_atom).
    + now do 2 apply represents_ext.
    + now apply represents_ext.
Qed.

(** *** Runs only allocate *)

Lemma allocates_only_ret {A} (a : A) : Store.allocates_only (Store.ret a).
Proof. intros h. exists []. simpl. now rewrite app_nil_r. Qed.

Lemma allocates_only_raise {A} (x : Store.Exn) :
  Store.allocates_only (@Store.raise A x).
Proof. intros h. exists []. simpl. now rewrite app_nil_r. Qed.

Lemma allocates_only_new (o : Store.Obj) : Store.allocates_only (Store.new o).
Proof. intros h. now exists [o]. Qed.

Lemma allocates_only_deref (v : Store.Val) :
  Store.allocates_only (Store.deref v).
Proof.
  intros h. exists []. rewrite app_nil_r.
  destruct v as [| | | |l]; simpl; try reflexivity.
  now destruct (nth_error h l).
Qed.

Lemma allocates_only_bind {A B} (c : Store.M A) (k : A -> Store.M B) :
  Store.allocates_only c ->
  (forall a, Store.allocates_only (k a)) ->
  Store.allocates_only (Store.bind c k).
Proof.
  intros Hc Hk h. unfold Store.bind.
  destruct (Hc h) as [e1 He1].
  destruct (c h) as [[x|a] h1]; simpl in He1; subst h1.
  - now exists e1.
  - destruct (Hk a (h ++ e1)) as [e2 He2].
    exists (e1 ++ e2). now rewrite He2, app_assoc.
Qed.

Lemma allocates_only_traverse {A B} (f : A -> Store.M B) (l : list A) :
  Forall (fun a => Store.allocates_only (f a)) l ->
  Store.allocates_only (Store.traverse f l).
Proof.
  induction 1 as [|a l Ha _ IH]; simpl.
  - apply allocates_only_ret.
  - apply allocates_only_bind; [exact Ha|]. intros b.
    apply allocates_only_bind; [exact IH|]. intros bs.
    apply allocates_only_ret.
Qed.

Lemma allocates_only_alloc_json (j : Json) :
  Store.allocates_only (Store.alloc_json j).
Proof.
  induction j as [| b | z | s | xs IH | kvs IH] using Json_tree_ind;
    try apply allocates_only_ret.
  - simpl. apply allocates_only_bind.
    + now apply allocates_only_traverse.
    + intros vs. apply allocates_only_new.
  - intros h. rewrite alloc_json_dict. revert h.
    apply allocates_only_bind.
    + apply allocates_only_traverse.
      eapply Forall_impl; [|exact IH]. cbv beta.
      intros kv Hkv. apply allocates_only_bind; [exact Hkv|].
      intros v. apply allocates_only_ret.
    + intros items. apply allocates_only_new.
Qed.

Lemma allocates_only_get (d : Store.Val) (k : string) (dflt : Store.Val) :
  Store.allocates_only (Store.get d k dflt).
Proof.
  apply allocates_only_bind; [apply allocates_only_deref|].
  intros [items|items|cls];
    [apply allocates_only_ret | apply allocates_only_raise
     | apply allocates_only_raise].
Qed.

Lemma allocates_only_model_json_schema (cls : Store.Val) :
  Store.allocates_only (Store.model_json_schema cls).
Proof.
  apply allocates_only_bind; [apply allocates_only_deref|].
  intros [items|items|c];
    [apply allocates_only_raise | apply allocates_only_raise
     | apply allocates_only_alloc_json].
Qed.

Lemma allocates_only_convert (arg : Store.Val) :
  Store.allocates_only (Store.pydantic_to_so_openai_schema arg).
Proof.
  unfold Store.pydantic_to_so_openai_schema,
    Store.JSONSchema, Store.ResponseFormatJSONSchema, Store.display.
  repeat (first
            [ apply allocates_only_model_json_schema
            | apply allocates_only_get
            | apply allocates_only_new
            | apply allocates_only_ret
            | apply allocates_only_bind; [|intros ?] ]).
Qed.

End StoreRuns.

(** ** The claims about a call *)

(** C5: called on a model class, the function returns, without raising, a
    value that stands for the converted schema; in it [properties] is the
    empty dictionary when the introspected schema has no [properties] key,
    [required] is the empty list when it has no [required] key, and the
    schema is a closed object schema all the same. *)
Theorem missing_keys_default_to_empty
        (h : Store.Heap) (c : Store.loc) (m : ModelClass) :
  nth_error h c = Some (Store.OClass m) ->
  exists v h',
    Store.pydantic_to_so_openai_schema (Store.VRef c) h = (inr v, h') /\
    Store.represents h' v (pydantic_to_so_openai_schema m) /\
    schema_field (pydantic_to_so_openai_schema m) "properties"
    = Some (match dict_lookup (model_json_schema m) "properties" with
            | Some properties => properties
            | None => JObj []
            end) /\
    schema_field (pydantic_to_so_openai_schema m) "required"
    = Some (match dict_lookup (model_json_schema m) "required" with
            | Some required => required
            | None => JArr []
            end) /\
    schema_field (pydantic_to_so_openai_schema m) "type"
    = Some (JStr "object") /\
    schema_field (pydantic_to_so_openai_schema m) "additionalProperties"
    = Some (JBool false).
Proof.
  intros Hc.
  destruct (convert_returns h c m Hc) as (v & h' & Hrun & _ & Hrep).
  exists v, h'. split; [exact Hrun|]. split; [exact Hrep|].
  rewrite properties_of_convert, required_of_convert, !dict_lookup_get.
  repeat split.
Qed.

Lemma missing_keys_default_to_empty_witness :
  nth_error Store.person_heap 1 = Some (Store.OClass (BaseModel Empty_decl))
  /\
  exists v h',
    Store.pydantic_to_so_openai_schema (Store.VRef 1) Store.person_heap
    = (inr v, h') /\
    Store.represents h' v (pydantic_to_so_openai_schema (BaseModel Empty_decl))
    /\
    schema_field (pydantic_to_so_openai_schema (BaseModel Empty_decl))
                 "properties" = Some (JObj []) /\
    schema_field (pydantic_to_so_openai_schema (BaseModel Empty_decl))
                 "required" = Some (JArr []) /\
    schema_field (pydantic_to_so_openai_schema (BaseModel Empty_decl))
                 "type" = Some (JStr "object") /\
    schema_field (pydantic_to_so_openai_schema (BaseModel Empty_decl))
                 "additionalProperties" = Some (JBool false).
Proof.
  split; [reflexivity|].
  exact (missing_keys_default_to_empty
           Store.person_heap 1 (BaseModel Empty_decl) eq_refl).
Defined.

(** C7: two calls on the same model class, one after the other, return two
    values that stand for the same tree, the converted schema of the class;
    the tree does not depend on the heap in which the call runs. *)
Theorem two_calls_same_structure
        (h : Store.Heap) (c : Store.loc) (m : ModelClass) :
  nth_error h c = Some (Store.OClass m) ->
  exists v1 h1 v2 h2,
    Store.pydantic_to_so_openai_schema (Store.VRef c) h = (inr v1, h1) /\
    Store.pydantic_to_so_openai_schema (Store.VRef c) h1 = (inr v2, h2) /\
    Store.represents h2 v1 (pydantic_to_so_openai_schema m) /\
    Store.represents h2 v2 (pydantic_to_so_openai_schema m).
Proof.
  intros Hc.
  destruct (convert_returns h c m Hc) as (v1 & h1 & Hrun1 & [e1 ->] & Hrep1).
  pose proof (nth_error_ext h e1 c _ Hc) as Hc1.
  destruct (convert_returns _ c m Hc1) as (v2 & h2 & Hrun2 & [e2 ->] & Hrep2).
  exists v1, (h ++ e1), v2, ((h ++ e1) ++ e2).
  repeat split; try assumption.
  now apply represents_ext.
Qed.

Lemma two_calls_same_structure_witness :
  nth_error Store.person_heap 0 = Some (Store.OClass Person) /\
  exists v1 h1 v2 h2,
    Store.pydantic_to_so_openai_schema (Store.VRef 0) Store.person_heap
    = (inr v1, h1) /\
    Store.pydantic_to_so_openai_schema (Store.VRef 0) h1 = (inr v2, h2) /\
    Store.represents h2 v1 person_schema /\
    Store.represents h2 v2 person_schema.
Proof.
  split; [reflexivity|].
  exact (two_calls_same_structure Store.person_heap 0 Person eq_refl).
Defined.

(** C8: a call, whatever its argument and whether it returns or raises,
    leaves every object that existed before it as it was, the model class
    included: the heap after the call is the heap before it followed by the
    objects that the call allocated. *)
Theorem call_only_allocates (h : Store.Heap) (arg : Store.Val) :
  exists e,
    snd (Store.pydantic_to_so_openai_schema arg h) = h ++ e /\
    Store.before (length h) (snd (Store.pydantic_to_so_openai_schema arg h))
    = h.
Proof.
  destruct (allocates_only_convert arg h) as [e He].
  exists e. split; [exact He|].
  rewrite He. unfold Store.before.
  rewrite firstn_app, Nat.sub_diag, firstn_all. simpl. apply app_nil_r.
Qed.

(** ** Further properties of the conversion over values *)

(** X1: the function reads three things in the introspected schema and nothing
    else: two classes get the same result exactly when their schemas agree on
    [get("properties", {})], [get("required", [])] and
    [get("title", "GeneratedSChema")].  Every other key, [type] and
    [additionalProperties] included, is ignored, and the three values can be
    read back from the result. *)
Theorem result_determined_by_three_lookups (m1 m2 : ModelClass) :
  pydantic_to_so_openai_schema m1 = pydantic_to_so_openai_schema m2 <->
  dict_get (model_json_schema m1) "properties" (JObj [])
  = dict_get (model_json_schema m2) "properties" (JObj []) /\
  dict_get (model_json_schema m1) "required" (JArr [])
  = dict_get (model_json_schema m2) "required" (JArr []) /\
  dict_get (model_json_schema m1) "title" (JStr "GeneratedSChema")
  = dict_get (model_json_schema m2) "title" (JStr "GeneratedSChema").
Proof.
  split.
  - intros H.
    pose proof (properties_of_convert m1) as Hp.
    pose proof (required_of_convert m1) as Hr.
    pose proof (name_of_convert m1) as Hn.
    rewrite H in Hp, Hr, Hn.
    rewrite properties_of_convert in Hp.
    rewrite required_of_convert in Hr.
    rewrite name_of_convert in Hn.
    repeat split; congruence.
  - intros (Hp & Hr & Ht).
    unfold pydantic_to_so_openai_schema. cbv zeta.
    now rewrite Hp, Hr, Ht.
Qed.

(** X2: converting a class whose introspection returns an output schema gives
    that schema back; the name falls back to ["GeneratedSChema"], since the
    output schema carries no title. *)
Theorem conversion_is_stable (m : ModelClass) :
  exists d,
    schema_of (pydantic_to_so_openai_schema m) = Some (JObj d) /\
    schema_of (pydantic_to_so_openai_schema {| model_json_schema := d |})
    = Some (JObj d) /\
    name_of (pydantic_to_so_openai_schema {| model_json_schema := d |})
    = Some (JStr "GeneratedSChema").
Proof.
  rewrite schema_of_convert. eexists. split; [reflexivity|].
  split; reflexivity.
Qed.

(** *** Dictionary displays *)

Section DisplayFacts.

Context {V : Type}.
Implicit Types (d : list (string * V)) (k : string) (v : V).

Lemma dict_lookup_set d k k' v :
  dict_lookup (dict_set d k v) k'
  = if String.eqb k k' then Some v else dict_lookup d k'.
Proof.
  induction d as [|[k0 v0] d IH]; simpl.
  - reflexivity.
  - destruct (String.eqb_spec k0 k) as [->|Hne]; simpl.
    + destruct (String.eqb k k'); reflexivity.
    + rewrite IH. destruct (String.eqb_spec k0 k') as [->|Hne'].
      * destruct (String.eqb_spec k k'); [congruence | reflexivity].
      * reflexivity.
Qed.

Lemma dict_set_NoDup d k v : NoDup (keys d) -> NoDup (keys (dict_set d k v)).
Proof.
  induction d as [|[k0 v0] d IH]; simpl; intros Hnd.
  - repeat constructor. simpl. tauto.
  - inversion Hnd as [|? ? Hk0 Hnd']; subst.
    destruct (String.eqb_spec k0 k) as [->|Hne]; simpl.
    + now constructor.
    + constructor; [|now apply IH].
      rewrite keys_dict_set_incl. intros [H|H]; [congruence | tauto].
Qed.

Lemma dict_lookup_app d1 d2 k :
  dict_lookup (d1 ++ d2) k
  = match dict_lookup d1 k with
    | Some v => Some v
    | None => dict_lookup d2 k
    end.
Proof.
  induction d1 as [|[k0 v0] d1 IH]; simpl; [reflexivity|].
  destruct (String.eqb k0 k); [reflexivity | exact IH].
Qed.

Lemma display_from d (items : list (string * V)) k :
  dict_lookup (fold_left (fun d kv => dict_set d (fst kv) (snd kv)) items d) k
  = match dict_lookup (rev items) k with
    | Some v => Some v
    | None => dict_lookup d k
    end.
Proof.
  revert d. induction items as [|[k0 v0] items IH]; intros d; simpl.
  - reflexivity.
  - rewrite IH, dict_lookup_app, dict_lookup_set. simpl.
    destruct (dict_lookup (rev items) k); [reflexivity|].
    destruct (String.eqb k0 k); reflexivity.
Qed.

Lemma display_NoDup_from d (items : list (string * V)) :
  NoDup (keys d) ->
  NoDup (keys (fold_left (fun d kv => dict_set d (fst kv) (snd kv)) items d)).
Proof.
  revert d. induction items as [|kv items IH]; intros d Hnd; simpl.
  - exact Hnd.
  - apply IH. now apply dict_set_NoDup.
Qed.

(** X3: a dictionary display, as the function writes three of them, has no key
    twice, and looking a key up in it gives the value of the last item that
    was written with that key. *)
Theorem display_lookup_last (items : list (string * V)) (k : string) :
  NoDup (keys (dict_display items)) /\
  dict_lookup (dict_display items) k = dict_lookup (rev items) k /\
  (forall dflt,
      dict_get (dict_display items) k dflt
      = dict_get (rev items) k dflt).
Proof.
  unfold dict_display. split; [|split].
  - apply display_NoDup_from. constructor.
  - rewrite display_from. simpl. now destruct (dict_lookup (rev items) k).
  - intros dflt. rewrite !dict_lookup_get, display_from. simpl.
    now destruct (dict_lookup (rev items) k).
Qed.

End DisplayFacts.

(** *** Declared models *)

Lemma filter_all_of_length {A} (p : A -> bool) (l : list A) :
  length (filter p l) = length l -> forall x, In x l -> p x = true.
Proof.
  induction l as [|a l IH]; simpl; intros Hlen x Hin; [tauto|].
  destruct (p a) eqn:Ea; simpl in Hlen.
  - destruct Hin as [<-|Hin]; [exact Ea|]. apply IH; [lia | exact Hin].
  - pose proof (filter_length_le p l). lia.
Qed.

(** X4: for a declared model with distinct field names, the keys of the output
    [properties] are the declared names in declaration order, defaults or
    not, and the output [required] lists all of them exactly when no field
    has a default: the function does nothing to make a field with a default
    required. *)
Theorem required_is_all_iff_no_defaults (m : ModelDecl) :
  NoDup (field_names m) ->
  exists props req,
    schema_field (pydantic_to_so_openai_schema (BaseModel m)) "properties"
    = Some (JObj props) /\
    schema_field (pydantic_to_so_openai_schema (BaseModel m)) "required"
    = Some (str_list req) /\
    keys props = field_names m /\
    (req = keys props <->
     forall f, In f (cls_fields m) -> default f = None).
Proof.
  intros Hnd.
  exists (properties_of (cls_fields m)), (required_of (cls_fields m)).
  rewrite properties_of_convert, required_of_convert. simpl.
  rewrite generated_properties, generated_required.
  split; [reflexivity|]. split; [reflexivity|].
  rewrite (keys_properties_of _ Hnd). split; [reflexivity|].
  unfold field_names. split.
  - intros Heq f Hin.
    assert (Hlen : length (filter is_required (cls_fields m))
                   = length (cls_fields m)).
    { apply (f_equal (@length string)) in Heq.
      unfold required_of in Heq. now rewrite !length_map in Heq. }
    pose proof (filter_all_of_length _ _ Hlen f Hin) as Hreq.
    unfold is_required in Hreq. now destruct (default f).
  - apply required_all.
Qed.

Lemma required_is_all_iff_no_defaults_witness :
  NoDup (field_names Contact_decl) /\
  exists props req,
    schema_field (pydantic_to_so_openai_schema (BaseModel Contact_decl))
                 "properties" = Some (JObj props) /\
    schema_field (pydantic_to_so_openai_schema (BaseModel Contact_decl))
                 "required" = Some (str_list req) /\
    keys props = ["full_name"; "nickname"] /\
    (req = keys props <->
     forall f, In f (cls_fields Contact_decl) -> default f = None).
Proof.
  assert (Hnd : NoDup (field_names Contact_decl)).
  { repeat constructor; simpl; intuition discriminate. }
  split; [exact Hnd|].
  exact (required_is_all_iff_no_defaults Contact_decl Hnd).
Defined.

(** ** Further properties of a call *)

Section StoreLocal.

Lemma built_in_ext (n : nat) (e e2 : list Store.Obj) v j :
  Store.built_in n e v j -> Store.built_in n (e ++ e2) v j.
Proof.
  intros H h Hn. rewrite app_assoc. apply represents_ext. now apply H.
Qed.

Lemma built_in_shift (n : nat) (e1 e2 : list Store.Obj) v j :
  Store.built_in (n + length e1) e2 v j -> Store.built_in n (e1 ++ e2) v j.
Proof.
  intros H h Hn. rewrite app_assoc. apply H.
  rewrite length_app. lia.
Qed.

Lemma traverse_local {A B} (f : A -> Store.M B)
      (R : nat -> list Store.Obj -> B -> A -> Prop) (l : list A) :
  (forall n e e2 b a, R n e b a -> R n (e ++ e2) b a) ->
  (forall n e1 e2 b a, R (n + length e1) e2 b a -> R n (e1 ++ e2) b a) ->
  Forall (fun a => Store.returns_local (f a) (fun n e b => R n e b a)) l ->
  Store.returns_local (Store.traverse f l)
                      (fun n e bs => Forall2 (R n e) bs l).
Proof.
  intros Hext Hshift Hl. induction Hl as [|a l Ha _ IH]; intros h; simpl.
  - exists [], []. rewrite app_nil_r. split; [reflexivity | constructor].
  - destruct (Ha h) as (b & e1 & Hrun1 & Hb).
    destruct (IH (h ++ e1)) as (bs & e2 & Hrun2 & Hbs).
    exists (b :: bs), (e1 ++ e2).
    unfold Store.bind. rewrite Hrun1, Hrun2. unfold Store.ret.
    rewrite app_assoc. split; [reflexivity|].
    constructor; [now apply Hext|].
    eapply Forall2_impl; [|exact Hbs]. cbv beta.
    intros b' a' H'. apply Hshift. now rewrite length_app in H'.
Qed.

(** A tree is built out of the objects that its allocation adds. *)
Lemma alloc_json_local (j : Json) :
  Store.returns_local (Store.alloc_json j)
                      (fun n e v => Store.built_in n e v j).
Proof.
  induction j as [| b | z | s | xs IH | kvs IH] using Json_tree_ind;
    try (intros h; eexists; exists []; rewrite app_nil_r;
         split; [reflexivity | intros h' _; exists 0; reflexivity]).
  - intros h.
    destruct (traverse_local Store.alloc_json Store.built_in xs
                built_in_ext built_in_shift IH h)
      as (vs & e & Hrun & Hvs).
    exists (Store.VRef (length (h ++ e))), (e ++ [Store.OList vs]).
    simpl. unfold Store.bind. rewrite Hrun. unfold Store.new.
    rewrite app_assoc. split; [reflexivity|].
    intros h' Hn. rewrite app_assoc.
    replace (length (h ++ e)) with (length (h' ++ e))
      by (rewrite !length_app; lia).
    apply represents_list with (vs := vs); [apply nth_error_last|].
    eapply Forall2_impl; [|exact Hvs]. cbv beta.
    intros v x Hv. apply represents_ext. now apply Hv.
  - intros h.
    assert (Hkv : Forall
                    (fun kv =>
                       Store.returns_local
                         (Store.bind (Store.alloc_json (snd kv))
                                     (fun v => Store.ret (fst kv, v)))
                         (fun n e it =>
                            fst it = fst kv /\
                            Store.built_in n e (snd it) (snd kv)))
                    kvs).
    { eapply Forall_impl; [|exact IH]. cbv beta.
      intros kv Hkv h0. destruct (Hkv h0) as (v & e & Hrun & Hv).
      exists (fst kv, v), e. unfold Store.bind. rewrite Hrun.
      unfold Store.ret. split; [reflexivity|].
      split; [reflexivity | exact Hv]. }
    destruct (traverse_local _
                (fun n e it kv =>
                   fst it = fst kv /\ Store.built_in n e (snd it) (snd kv))
                kvs
                (fun n e e2 it kv H =>
                   conj (proj1 H) (built_in_ext n e e2 _ _ (proj2 H)))
                (fun n e1 e2 it kv H =>
                   conj (proj1 H) (built_in_shift n e1 e2 _ _ (proj2 H)))
                Hkv h)
      as (items & e & Hrun & Hitems).
    exists (Store.VRef (length (h ++ e))), (e ++ [Store.ODict items]).
    rewrite alloc_json_dict. unfold Store.bind at 1. rewrite Hrun.
    unfold Store.new. rewrite app_assoc. split; [reflexivity|].
    intros h' Hn. rewrite app_assoc.
    replace (length (h ++ e)) with (length (h' ++ e))
      by (rewrite !length_app; lia).
    apply represents_dict with (items := items); [apply nth_error_last|].
    apply items_represent_ext.
    eapply Forall2_impl; [|exact Hitems]. cbv beta.
    intros it kv [Hk Hv]. split; [exact Hk | now apply Hv].
Qed.

End StoreLocal.

Section StoreCall.

Lemma nth_error_repeat_list (n l : nat) :
  l < n -> nth_error (repeat (Store.OList []) n) l = Some (Store.OList []).
Proof.
  revert l. induction n as [|n IH]; intros l Hl; [lia|].
  destruct l as [|l]; simpl; [reflexivity|]. apply IH. lia.
Qed.

(** A dictionary that is built in [e] is an object of [e], the same in every
    heap. *)
Lemma built_in_dict_inv (n : nat) (e : list Store.Obj) v kvs :
  Store.built_in n e v (JObj kvs) ->
  exists l items,
    v = Store.VRef l /\ n <= l /\
    nth_error e (l - n) = Some (Store.ODict items) /\
    forall h, length h = n -> Store.items_represent (h ++ e) items kvs.
Proof.
  intros Hb.
  pose proof (Hb (repeat (Store.OList []) n) (repeat_length _ n)) as H0.
  destruct (represents_dict_inv _ _ _ H0) as (l & items & -> & Hl & _).
  assert (Hle : n <= l).
  { destruct (Nat.lt_ge_cases l n) as [Hlt|Hge]; [|exact Hge].
    rewrite nth_error_app1 in Hl by (rewrite repeat_length; exact Hlt).
    rewrite (nth_error_repeat_list _ _ Hlt) in Hl. discriminate. }
  rewrite nth_error_app2 in Hl by (rewrite repeat_length; exact Hle).
  rewrite repeat_length in Hl.
  exists l, items. repeat split; try assumption.
  intros h Hn.
  destruct (represents_dict_inv _ _ _ (Hb h Hn)) as (l' & items' & E & Hl' & Hit).
  inversion E; subst l'.
  rewrite nth_error_app2 in Hl' by lia. rewrite Hn in Hl'.
  assert (items' = items) by congruence. now subst items'.
Qed.

Lemma nth_error_call_object (h : Store.Heap) (objs : list Store.Obj) (k : nat) :
  nth_error (h ++ objs) (length h + k) = nth_error objs k.
Proof.
  rewrite nth_error_app2 by lia. f_equal. lia.
Qed.

(** The body of the function after the introspection. *)
Lemma call_run (h h0 : Store.Heap) (arg : Store.Val) (l0 : Store.loc) items :
  Store.model_json_schema arg h = (inr (Store.VRef l0), h0) ->
  nth_error h0 l0 = Some (Store.ODict items) ->
  Store.pydantic_to_so_openai_schema arg h
  = (inr (Store.VRef (length h0 + 4)),
     h0 ++ Store.call_objects (length h0) items).
Proof.
  intros Hrun0 Hl0.
  unfold Store.pydantic_to_so_openai_schema.
  unfold Store.bind at 1. rewrite Hrun0.
  unfold Store.bind at 1. unfold Store.new at 1.
  unfold Store.bind at 1.
  rewrite (get_run _ l0 items) by (repeat apply nth_error_ext; exact Hl0).
  unfold Store.bind at 1. unfold Store.new at 1.
  unfold Store.bind at 1.
  rewrite (get_run _ l0 items) by (repeat apply nth_error_ext; exact Hl0).
  unfold Store.bind at 1. unfold Store.display at 1, Store.new at 1.
  unfold Store.bind at 1.
  rewrite (get_run _ l0 items) by (repeat apply nth_error_ext; exact Hl0).
  unfold Store.bind at 1.
  unfold Store.JSONSchema, Store.display at 1, Store.new at 1.
  unfold Store.bind at 1.
  unfold Store.ResponseFormatJSONSchema, Store.display at 1, Store.new at 1.
  unfold Store.ret, Store.call_objects.
  rewrite !length_app. simpl length.
  rewrite <- !app_assoc. simpl app.
  rewrite <- !Nat.add_assoc. simpl Nat.add.
  reflexivity.
Qed.

(** The objects of a call stand for the converted schema. *)
Lemma call_objects_represent (h1 : Store.Heap) items (m : ModelClass) :
  Store.items_represent h1 items (model_json_schema m) ->
  Store.represents (h1 ++ Store.call_objects (length h1) items)
                   (Store.VRef (length h1 + 4))
                   (pydantic_to_so_openai_schema m).
Proof.
  intros Hit.
  pose proof (items_represent_ext h1 (Store.call_objects (length h1) items)
                                  _ _ Hit) as Hit'.
  set (H := h1 ++ Store.call_objects (length h1) items) in *.
  assert (Hn : forall k o,
             nth_error (Store.call_objects (length h1) items) k = Some o ->
             nth_error H (length h1 + k) = Some o).
  { intros k o Hk. unfold H. now rewrite nth_error_call_object. }
  assert (Hp : Store.represents H
                 (dict_get items "properties" (Store.VRef (length h1)))
                 (dict_get (model_json_schema m) "properties" (JObj []))).
  { apply dict_get_represents; [exact Hit'|].
    apply represents_dict with (items := []); [|constructor].
    rewrite <- (Nat.add_0_r (length h1)). now apply Hn. }
  assert (Hq : Store.represents H
                 (dict_get items "required" (Store.VRef (length h1 + 1)))
                 (dict_get (model_json_schema m) "required" (JArr []))).
  { apply dict_get_represents; [exact Hit'|].
    apply represents_list with (vs := []); [|constructor]. now apply Hn. }
  assert (Ht : Store.represents H
                 (dict_get items "title" (Store.VStr "GeneratedSChema"))
                 (dict_get (model_json_schema m) "title"
                           (JStr "GeneratedSChema"))).
  { apply dict_get_represents; [exact Hit' | now apply represents_atom]. }
  unfold pydantic_to_so_openai_schema, ResponseFormatJSONSchema, JSONSchema.
  eapply represents_dict; [now apply Hn|].
  repeat constructor; try (now apply represents_atom).
  eapply represents_dict; [now apply Hn|].
  repeat constructor; try (now apply represents_atom); [exact Ht|].
  eapply represents_dict; [now apply Hn|].
  repeat constructor; try (now apply represents_atom); assumption.
Qed.

(** What the introspection of a class leaves: a new dictionary object, its
    entries built out of the new objects. *)
Lemma introspection_effect (h : Store.Heap) (c : Store.loc) (m : ModelClass) :
  nth_error h c = Some (Store.OClass m) ->
  exists e0 l0 items,
    Store.model_json_schema (Store.VRef c) h
    = (inr (Store.VRef l0), h ++ e0) /\
    length h <= l0 /\
    nth_error e0 (l0 - length h) = Some (Store.ODict items) /\
    forall h', length h' = length h ->
               Store.items_represent (h' ++ e0) items (model_json_schema m).
Proof.
  intros Hc.
  destruct (alloc_json_local (JObj (model_json_schema m)) h)
    as (v0 & e0 & Hrun0 & Hb).
  destruct (built_in_dict_inv _ _ _ _ Hb) as (l0 & items & -> & Hle & Hl0 & Hit).
  exists e0, l0, items.
  rewrite (model_json_schema_run _ _ _ Hc). auto.
Qed.

End StoreCall.

Lemma items_lookup_none (h : Store.Heap) items kvs (k : string) :
  Store.items_represent h items kvs ->
  (dict_lookup items k = None <-> dict_lookup kvs k = None).
Proof.
  induction 1 as [|[k1 v1] [k2 j2] items kvs [Hk _] _ IH]; simpl.
  - tauto.
  - simpl in Hk. subst k2.
    destruct (String.eqb k1 k); [split; discriminate | exact IH].
Qed.

Lemma path_step (h : Store.Heap) (l : Store.loc) items (k : string)
      (v' : Store.Val) (ks : list string) :
  nth_error h l = Some (Store.ODict items) ->
  dict_lookup items k = Some v' ->
  Store.path h (Store.VRef l) (k :: ks) = Store.path h v' ks.
Proof. intros Hl Hk. simpl. now rewrite Hl, Hk. Qed.


(** The introspection followed by the body, on a model class. *)
Lemma call_effect_on_class (h : Store.Heap) (c : Store.loc) (m : ModelClass) :
  nth_error h c = Some (Store.OClass m) ->
  exists l0 h0 items,
    Store.model_json_schema (Store.VRef c) h = (inr (Store.VRef l0), h0) /\
    nth_error h0 l0 = Some (Store.ODict items) /\
    Store.items_represent h0 items (model_json_schema m) /\
    Store.pydantic_to_so_openai_schema (Store.VRef c) h
    = (inr (Store.VRef (length h0 + 4)),
       h0 ++ Store.call_objects (length h0) items).
Proof.
  intros Hc.
  destruct (introspection_effect h c m Hc)
    as (e0 & l0 & items & Hrun0 & Hle & Hl0 & Hit).
  assert (Hl0' : nth_error (h ++ e0) l0 = Some (Store.ODict items)).
  { now rewrite nth_error_app2 by lia. }
  exists l0, (h ++ e0), items.
  split; [exact Hrun0|]. split; [exact Hl0'|].
  split; [now apply Hit|].
  now apply call_run with (l0 := l0).
Qed.



(** X7: the object returned is new: it did not exist before the call, and two
    calls one after the other return two different objects. *)
Theorem result_is_a_new_object
        (h : Store.Heap) (c : Store.loc) (m : ModelClass) :
  nth_error h c = Some (Store.OClass m) ->
  exists l1 h1 l2 h2,
    Store.pydantic_to_so_openai_schema (Store.VRef c) h
    = (inr (Store.VRef l1), h1) /\
    Store.pydantic_to_so_openai_schema (Store.VRef c) h1
    = (inr (Store.VRef l2), h2) /\
    length h <= l1 /\ l1 < length h1 /\
    length h1 <= l2 /\ l2 < length h2 /\
    l1 <> l2.
Proof.
  intros Hc.
  destruct (call_effect_on_class h c m Hc)
    as (l0 & h0 & items & Hrun0 & _ & _ & Hrun).
  destruct (allocates_only_model_json_schema (Store.VRef c) h) as [e0 He0].
  rewrite Hrun0 in He0. simpl in He0. subst h0.
  set (h1 := (h ++ e0) ++ Store.call_objects (length (h ++ e0)) items) in *.
  assert (Hc1 : nth_error h1 c = Some (Store.OClass m)).
  { unfold h1. now do 2 apply nth_error_ext. }
  destruct (call_effect_on_class h1 c m Hc1)
    as (l0' & h0' & items' & Hrun0' & _ & _ & Hrun').
  destruct (allocates_only_model_json_schema (Store.VRef c) h1) as [e0' He0'].
  rewrite Hrun0' in He0'. simpl in He0'. subst h0'.
  eexists _, h1, _, _. split; [exact Hrun|]. split; [exact Hrun'|].
  unfold h1. rewrite !length_app. simpl. lia.
Qed.

Lemma result_is_a_new_object_witness :
  nth_error Store.person_heap 0 = Some (Store.OClass Person) /\
  exists l1 h1 l2 h2,
    Store.pydantic_to_so_openai_schema (Store.VRef 0) Store.person_heap
    = (inr (Store.VRef l1), h1) /\
    Store.pydantic_to_so_openai_schema (Store.VRef 0) h1
    = (inr (Store.VRef l2), h2) /\
    length Store.person_heap <= l1 /\ l1 < length h1 /\
    length h1 <= l2 /\ l2 < length h2 /\
    l1 <> l2.
Proof.
  split; [reflexivity|].
  exact (result_is_a_new_object Store.person_heap 0 Person eq_refl).
Defined.

(** X8: the tree that the result stands for lives in the objects that the call
    allocated: replace the objects that existed before the call by any
    others, an earlier result of the function among them, and the result
    still stands for the converted schema. *)
Theorem result_built_from_new_objects
        (h : Store.Heap) (c : Store.loc) (m : ModelClass) :
  nth_error h c = Some (Store.OClass m) ->
  exists v e,
    Store.pydantic_to_so_openai_schema (Store.VRef c) h = (inr v, h ++ e) /\
    forall h', length h' = length h ->
               Store.represents (h' ++ e) v (pydantic_to_so_openai_schema m).
Proof.
  intros Hc.
  destruct (introspection_effect h c m Hc)
    as (e0 & l0 & items & Hrun0 & Hle & Hl0 & Hit).
  assert (Hl0' : nth_error (h ++ e0) l0 = Some (Store.ODict items)).
  { now rewrite nth_error_app2 by lia. }
  exists (Store.VRef (length (h ++ e0) + 4)),
         (e0 ++ Store.call_objects (length (h ++ e0)) items).
  split.
  - rewrite app_assoc. now apply call_run with (l0 := l0).
  - intros h' Hn. rewrite app_assoc.
    replace (length (h ++ e0)) with (length (h' ++ e0))
      by (rewrite !length_app; lia).
    apply call_objects_represent. now apply Hit.
Qed.

Lemma result_built_from_new_objects_witness :
  nth_error Store.person_heap 0 = Some (Store.OClass Person) /\
  exists v e,
    Store.pydantic_to_so_openai_schema (Store.VRef 0) Store.person_heap
    = (inr v, Store.person_heap ++ e) /\
    forall h', length h' = length Store.person_heap ->
               Store.represents (h' ++ e) v person_schema.
Proof.
  split; [reflexivity|].
  exact (result_built_from_new_objects Store.person_heap 0 Person eq_refl).
Defined.

(** X9: no copy is made: [result["json_schema"]["schema"]["properties"]] is the
    very value held under ["properties"] in the dictionary that the
    introspection returned, and a new empty dictionary only when that key is
    missing; the same goes for ["required"] and the new empty list. *)
Theorem result_shares_introspected_values
        (h : Store.Heap) (c : Store.loc) (m : ModelClass) :
  nth_error h c = Some (Store.OClass m) ->
  exists v0 h0 v h',
    Store.model_json_schema (Store.VRef c) h = (inr v0, h0) /\
    Store.pydantic_to_so_openai_schema (Store.VRef c) h = (inr v, h') /\
    Store.path h' v ["json_schema"; "schema"; "properties"]
    = Some (match Store.path h' v0 ["properties"] with
            | Some properties => properties
            | None => Store.VRef (length h0)
            end) /\
    Store.path h' v ["json_schema"; "schema"; "required"]
    = Some (match Store.path h' v0 ["required"] with
            | Some required => required
            | None => Store.VRef (length h0 + 1)
            end) /\
    (Store.path h' v0 ["properties"] = None
     <-> dict_lookup (model_json_schema m) "properties" = None) /\
    (Store.path h' v0 ["required"] = None
     <-> dict_lookup (model_json_schema m) "required" = None) /\
    nth_error h' (length h0) = Some (Store.ODict []) /\
    nth_error h' (length h0 + 1) = Some (Store.OList []).
Proof.
  intros Hc.
  destruct (call_effect_on_class h c m Hc)
    as (l0 & h0 & items & Hrun0 & Hl0 & Hit & Hrun).
  exists (Store.VRef l0), h0, (Store.VRef (length h0 + 4)),
         (h0 ++ Store.call_objects (length h0) items).
  split; [exact Hrun0|]. split; [exact Hrun|].
  assert (Hpath : forall k,
             Store.path (h0 ++ Store.call_objects (length h0) items)
                        (Store.VRef l0) [k]
             = dict_lookup items k).
  { intros k. simpl. rewrite (nth_error_ext _ _ _ _ Hl0).
    now destruct (dict_lookup items k). }
  rewrite !Hpath.
  assert (Hobj : forall k o,
             nth_error (Store.call_objects (length h0) items) k = Some o ->
             nth_error (h0 ++ Store.call_objects (length h0) items)
                       (length h0 + k) = Some o).
  { intros k o Hk. now rewrite nth_error_call_object. }
  assert (Hres : forall k v',
             dict_lookup
               [("type", Store.VStr "object");
                ("properties",
                 dict_get items "properties" (Store.VRef (length h0)));
                ("required",
                 dict_get items "required" (Store.VRef (length h0 + 1)));
                ("additionalProperties", Store.VBool false)] k = Some v' ->
             Store.path (h0 ++ Store.call_objects (length h0) items)
                        (Store.VRef (length h0 + 4))
                        ["json_schema"; "schema"; k]
             = Some v').
  { intros k v' Hk.
    rewrite (path_step _ _ _ "json_schema" _ _ (Hobj 4 _ eq_refl) eq_refl).
    rewrite (path_step _ _ _ "schema" _ _ (Hobj 3 _ eq_refl) eq_refl).
    now rewrite (path_step _ _ _ k _ _ (Hobj 2 _ eq_refl) Hk). }
  rewrite (Hres "properties" _ eq_refl), (Hres "required" _ eq_refl).
  rewrite !dict_lookup_get.
  split; [reflexivity|]. split; [reflexivity|].
  split; [now apply items_lookup_none with (h := h0)|].
  split; [now apply items_lookup_none with (h := h0)|].
  split.
  - pose proof (Hobj 0 _ eq_refl) as H0.
    rewrite Nat.add_0_r in H0. exact H0.
  - exact (Hobj 1 _ eq_refl).
Qed.

Lemma result_shares_introspected_values_witness :
  nth_error Store.person_heap 0 = Some (Store.OClass Person) /\
  exists v0 h0 v h',
    Store.model_json_schema (Store.VRef 0) Store.person_heap = (inr v0, h0) /\
    Store.pydantic_to_so_openai_schema (Store.VRef 0) Store.person_heap
    = (inr v, h') /\
    Store.path h' v ["json_schema"; "schema"; "properties"]
    = Some (match Store.path h' v0 ["properties"] with
            | Some properties => properties
            | None => Store.VRef (length h0)
            end) /\
    Store.path h' v ["json_schema"; "schema"; "required"]
    = Some (match Store.path h' v0 ["required"] with
            | Some required => required
            | None => Store.VRef (length h0 + 1)
            end) /\
    (Store.path h' v0 ["properties"] = None
     <-> dict_lookup (model_json_schema Person) "properties" = None) /\
    (Store.path h' v0 ["required"] = None
     <-> dict_lookup (model_json_schema Person) "required" = None) /\
    nth_error h' (length h0) = Some (Store.ODict []) /\
    nth_error h' (length h0 + 1) = Some (Store.OList []).
Proof.
  split; [reflexivity|].
  exact (result_shares_introspected_values Store.person_heap 0 Person eq_refl).
Defined.
